(** * telegram_exception_alerts.alerter: a shallow embedding and its properties

    The module defines one class, [Alerter], which posts messages to the
    Telegram bot API and decorates functions so that an exception raised by
    the decorated function is reported before it is re-raised.

    The embedding follows the Python text of [alerter.py]:
    - list objects live in a heap and are held by reference, [str] objects are
      immutable values;
    - the only external effect, [requests.post], appends the request to a log
      and answers through a transport oracle;
    - exceptions are results of a computation, [Raise e], next to [Ok v]. *)

From Stdlib Require Import Ascii ZArith.
From stdpp Require Import base option gmap strings list.

Local Open Scope string_scope.

Set Default Proof Using "Type".

(** ** Strings: the [in] operator of [str] *)

Module Str.

(** [t] is a prefix of [s]. *)
Fixpoint starts_with (t s : string) : bool :=
  match t, s with
  | EmptyString, _ => true
  | String a t', String b s' => if decide (a = b) then starts_with t' s' else false
  | String _ _, EmptyString => false
  end.

(** [t in s] for two [str] objects: [t] occurs in [s] as a contiguous run. *)
Fixpoint contains (t s : string) : bool :=
  starts_with t s ||
  match s with
  | EmptyString => false
  | String _ s' => contains t s'
  end.

(** The declarative reading of the same: [s] splits around an occurrence of [t]. *)
Definition occurs_in (t s : string) : Prop :=
  exists p q : string, s = p +:+ t +:+ q.

End Str.

(** ** Python objects the module handles *)

(** Addresses of list objects. *)
Definition loc := nat.

(** A filter of an [Alerter] is whatever the caller or the environment put
    there; the module itself produces two kinds: a list object ([[]] as a
    default, or a list given by the caller) and a [str] read from
    [os.environ]. A list is held by reference. *)
Inductive container :=
| PyStr (s : string)
| PyList (l : loc).

(** The in-flight exception, through what the handler observes of it. *)
Record exn := Exn {
  exc_type_name : string;   (* type(e).__name__ *)
  exc_str : string;         (* str(e), as the f-string formats {e} *)
  exc_format_exc : string   (* traceback.format_exc() while e is handled *)
}.

(** A value that goes into the [json=] body of the request. *)
Inductive json :=
| JNull
| JBool (b : bool)
| JInt (z : Z)
| JStr (s : string).

Record http_request := HttpRequest {
  req_method : string;
  req_url : string;
  req_json : list (string * json)   (* the dict, in insertion order *)
}.

(** [requests.Response], as far as this module looks into it: not at all. *)
Record response := Response {
  status_code : Z;
  resp_text : string
}.

(** The world a call runs in: the heap of list objects and the log of the
    requests posted so far. *)
Record world := World {
  w_heap : gmap loc (list string);
  w_posts : list http_request
}.

Inductive outcome (E A : Type) :=
| Ok (a : A)
| Raise (e : E).
Arguments Ok {E A} a.
Arguments Raise {E A} e.

(** ** Computations that may raise and that change the world *)

Definition M (E A : Type) : Type := world -> outcome E A * world.

#[export] Instance M_ret {E} : MRet (M E) := fun A a w => (Ok a, w).

#[export] Instance M_bind {E} : MBind (M E) := fun A B f m w =>
  match m w with
  | (Ok a, w') => f a w'
  | (Raise e, w') => (Raise e, w')
  end.

Definition raise {E A} (e : E) : M E A := fun w => (Raise e, w).

Definition get_heap {E} : M E (gmap loc (list string)) := fun w => (Ok (w_heap w), w).

(** [try: body / except BaseException as e: handler e]. *)
Definition try_except {E A} (body : M E A) (handler : E -> M E A) : M E A := fun w =>
  match body w with
  | (Ok a, w') => (Ok a, w')
  | (Raise e, w') => handler e w'
  end.

(** The list object at an address. *)
Definition deref (h : gmap loc (list string)) (l : loc) : list string := h !!! l.

(** [[]] evaluated: a new list object. *)
Definition new_list {E} : M E loc := fun w =>
  let l := fresh (dom (w_heap w)) in
  (Ok l, World (<[l := []]> (w_heap w)) (w_posts w)).

(** [lst.append(x)]: the object changes in place, every holder of the
    reference sees it. *)
Definition list_append (h : gmap loc (list string)) (l : loc) (x : string)
  : gmap loc (list string) :=
  <[l := (deref h l ++ [x])%list]> h.

(** [bool(c)]: a container is true when it is not empty. *)
Definition truth (h : gmap loc (list string)) (c : container) : bool :=
  match c with
  | PyStr s => negb (String.eqb s "")
  | PyList l => match deref h l with [] => false | _ :: _ => true end
  end.

(** [x in c]: an equal element for a list, an occurrence for a [str]. *)
Definition py_in (h : gmap loc (list string)) (x : string) (c : container) : bool :=
  match c with
  | PyStr s => Str.contains x s
  | PyList l => bool_decide (x ∈ deref h l)
  end.

(** The contents of a filter as a caller reads it back. *)
Inductive contents :=
| StrContents (s : string)
| ListContents (xs : list string).

Definition read (h : gmap loc (list string)) (c : container) : contents :=
  match c with
  | PyStr s => StrContents s
  | PyList l => ListContents (deref h l)
  end.

(** [c.append(x)] on a filter: a list object changes in place; a [str] has
    no such method (AttributeError, [None] here). *)
Definition container_append (h : gmap loc (list string)) (c : container) (x : string)
  : option (gmap loc (list string)) :=
  match c with
  | PyList l => Some (list_append h l x)
  | PyStr _ => None
  end.

(** A function object, as [def] and [lambda] make them: the metadata
    [functools.wraps] copies, which such an object always carries, and the
    call. *)
Record pyfunc (A R : Type) := PyFunc {
  fn_module : string;          (* __module__ *)
  fn_name : string;            (* __name__ *)
  fn_qualname : string;        (* __qualname__ *)
  fn_doc : option string;      (* __doc__, None when there is no docstring *)
  fn_call : A -> M exn R       (* func( *args, **kwargs) *)
}.
Arguments PyFunc {A R}.
Arguments fn_module {A R}.
Arguments fn_name {A R}.
Arguments fn_qualname {A R}.
Arguments fn_doc {A R}.
Arguments fn_call {A R}.

(** [functools.wraps(wrapped)(wrapper)]: the wrapper with the attributes of
    WRAPPER_ASSIGNMENTS taken from [wrapped]; [__wrapped__] and the copy of
    [__dict__] are not kept here. *)
Definition wraps {A R} (wrapped wrapper : pyfunc A R) : pyfunc A R :=
  {| fn_module := fn_module wrapped;
     fn_name := fn_name wrapped;
     fn_qualname := fn_qualname wrapped;
     fn_doc := fn_doc wrapped;
     fn_call := fn_call wrapper |}.

(** ** class Alerter *)

Record Alerter := mkAlerter {
  bot_token : string;
  chat_id : Z;
  whitelist : container;
  blacklist : container
}.

(** The default values of [blacklist=[]] and [whitelist=[]]: two list
    objects, built once, when [def __init__] is executed, and kept in the
    function's defaults. *)
Definition default_blacklist : loc := 0.
Definition default_whitelist : loc := 1.

(** The heap once the module is imported. *)
Definition module_heap : gmap loc (list string) :=
  {[ default_blacklist := []; default_whitelist := [] ]}.

(** [Alerter(bot_token, chat_id, blacklist=..., whitelist=...)]; [None] is
    an argument left out. Nothing is copied: a filter left out is the one
    default object. *)
Definition __init__ (bot_token : string) (chat_id : Z)
    (blacklist whitelist : option container) : Alerter :=
  mkAlerter bot_token chat_id
    (default (PyList default_whitelist) whitelist)
    (default (PyList default_blacklist) blacklist).

Definition base_url (self : Alerter) : string :=
  "https://api.telegram.org/bot" +:+ bot_token self.

(** What [from_environment] can raise. *)
Inductive construction_error :=
| KeyError (arg : string)          (* raise KeyError(arg) *)
| ValueError (literal : string).   (* int(literal) did not parse *)

(** The keyword arguments of the two send methods, [None] for one left out. *)
Record send_kwargs := SendKwargs {
  kw_parse_mode : option (option string);
  kw_disable_web_page_preview : option bool;
  kw_disable_notification : option bool
}.

Definition no_kwargs : send_kwargs := SendKwargs None None None.

Definition json_of_str_or_none (o : option string) : json :=
  match o with
  | Some s => JStr s
  | None => JNull
  end.

Definition LF : string := String "010"%char "".

Section alerter.

(** The builtin [int] on a [str]: [None] where it raises ValueError. *)
Variable py_int : string -> option Z.

(** The answer of the network to a request, given the requests before it:
    a response, or the exception [requests.post] raises. *)
Variable transport : list http_request -> http_request -> outcome exn response.

(** [os.environ[key]] inside [try ... except KeyError: raise KeyError(msg)]. *)
Definition environ_required (environ : gmap string string) (key msg : string)
  : M construction_error string :=
  match environ !! key with
  | Some v => mret v
  | None => raise (KeyError msg)
  end.

(** [os.environ.get(key, [])]: the default is evaluated, then looked past
    when the key is set. *)
Definition environ_get_or_list (environ : gmap string string) (key : string)
  : M construction_error container :=
  d ← new_list;
  mret (match environ !! key with
        | Some v => PyStr v
        | None => PyList d
        end).

Definition from_environment (environ : gmap string string)
  : M construction_error Alerter :=
  token ← environ_required environ "ALERT_BOT_TOKEN"
            "ALERT_BOT_TOKEN must be set in environment variables";
  chat_id ← environ_required environ "ALERT_CHAT_ID"
              "ALERT_CHAT_ID must be set in environment variables";
  whitelist ← environ_get_or_list environ "ALERT_BOT_WHITELIST";
  blacklist ← environ_get_or_list environ "ALERT_BOT_BLACKLIST";
  match py_int chat_id with
  | Some n => mret (__init__ token n (Some blacklist) (Some whitelist))
  | None => raise (ValueError chat_id)
  end.

(** [requests.post(url, json=params)]; the [import requests] at the head of
    [send_message] is taken to succeed. *)
Definition requests_post (url : string) (params : list (string * json))
  : M exn response := fun w =>
  let r := HttpRequest "POST" url params in
  (transport (w_posts w) r, World (w_heap w) (w_posts w ++ [r])%list).

Definition send_message (self : Alerter) (chat_id : Z) (text : string)
    (kw : send_kwargs) : M exn response :=
  let parse_mode := default None (kw_parse_mode kw) in
  let disable_web_page_preview := default true (kw_disable_web_page_preview kw) in
  let disable_notification := default false (kw_disable_notification kw) in
  let url := base_url self +:+ "/sendMessage" in
  let params :=
    [ ("chat_id", JInt chat_id);
      ("text", JStr text);
      ("parse_mode", json_of_str_or_none parse_mode);
      ("disable_web_page_preview", JBool disable_web_page_preview);
      ("disable_notification", JBool disable_notification) ] in
  response ← requests_post url params;
  mret response.

Definition custom_alert (self : Alerter) (text : string) (kw : send_kwargs)
  : M exn response :=
  let parse_mode := default None (kw_parse_mode kw) in
  let disable_web_page_preview := default true (kw_disable_web_page_preview kw) in
  let disable_notification := default false (kw_disable_notification kw) in
  send_message self (chat_id self) text
    (SendKwargs (Some parse_mode) (Some disable_web_page_preview)
                (Some disable_notification)).

(** The f-string of the alert. *)
Definition alert_text {A R} (e : exn) (func : pyfunc A R) : string :=
  "<b>" +:+ exc_type_name e +:+ "('" +:+ exc_str e +:+ "')</b> in <u>"
    +:+ fn_name func +:+ "</u> from <u>" +:+ fn_module func +:+ "</u>"
    +:+ LF +:+ LF +:+ "<pre>" +:+ exc_format_exc e +:+ "</pre>".

(** The body of [inner]. *)
Definition inner {A R} (self : Alerter) (func : pyfunc A R) (args : A) : M exn R :=
  try_except (fn_call func args) (fun e =>
    let error_type := exc_type_name e in
    h ← get_heap;
    if truth h (whitelist self) && py_in h error_type (whitelist self)
    then raise e
    else
      (if negb (truth h (blacklist self)) || py_in h error_type (blacklist self)
       then
         let text := alert_text e func in
         send_message self (chat_id self) text
           (SendKwargs (Some (Some "HTML")) None None) ≫= (fun _ => mret tt)
       else mret tt) ≫= (fun _ => raise e)).

Definition exception_alert {A R} (self : Alerter) (func : pyfunc A R) : pyfunc A R :=
  wraps func
    {| fn_module := "telegram_exception_alerts.alerter";
       fn_name := "inner";
       fn_qualname := "Alerter.exception_alert.<locals>.inner";
       fn_doc := None;
       fn_call := inner self func |}.

Definition __call__ {A R} (self : Alerter) (func : pyfunc A R) : pyfunc A R :=
  exception_alert self func.

End alerter.

(** ** Reading the filters *)

(** The words of the filter policy, on Python's own notions of an empty
    container and of membership. *)
Definition nonempty (h : gmap loc (list string)) (c : container) : Prop :=
  truth h c = true.

Definition member (h : gmap loc (list string)) (x : string) (c : container) : Prop :=
  py_in h x c = true.

(** The same two notions said without running anything: a filter holds
    something when its list has an element or its [str] a character, and it
    holds the name [x] when [x] is an element of the list or occurs in the
    [str]. *)
Definition filter_nonempty (h : gmap loc (list string)) (c : container) : Prop :=
  match c with
  | PyStr s => s <> ""
  | PyList l => deref h l <> []
  end.

Definition filter_holds (h : gmap loc (list string)) (x : string) (c : container) : Prop :=
  match c with
  | PyStr s => Str.occurs_in x s
  | PyList l => x ∈ deref h l
  end.

(** The filter decision in the order the policy gives it: a hit in a
    non-empty whitelist suppresses; else an empty blacklist or a hit in the
    blacklist sends; else nothing is sent. *)
Definition alert_due (h : gmap loc (list string)) (self : Alerter) (T : string) : bool :=
  if truth h (whitelist self) && py_in h T (whitelist self) then false
  else if negb (truth h (blacklist self)) || py_in h T (blacklist self) then true
  else false.

(** The keyword arguments [inner] passes: [parse_mode="HTML"], the rest left out. *)
Definition html_kwargs : send_kwargs := SendKwargs (Some (Some "HTML")) None None.

(** The request [send_message] builds. *)
Definition message_request (self : Alerter) (cid : Z) (text : string)
    (parse_mode : option string) (preview_off silent : bool) : http_request :=
  HttpRequest "POST"
    ("https://api.telegram.org/bot" +:+ bot_token self +:+ "/sendMessage")
    [ ("chat_id", JInt cid);
      ("text", JStr text);
      ("parse_mode", json_of_str_or_none parse_mode);
      ("disable_web_page_preview", JBool preview_off);
      ("disable_notification", JBool silent) ].

(** ** Sample data for the examples *)

(** A stand-in for the builtin [int] in the examples: it reads signed ASCII
    decimal literals, which [int] reads the same way. The builtin also takes
    blanks around the literal, underscores between digits and non-ASCII
    digits; no example uses them. *)
Definition digit_value (c : ascii) : option Z :=
  let n := nat_of_ascii c in
  if (48 <=? n)%nat && (n <=? 57)%nat then Some (Z.of_nat (n - 48)) else None.

Fixpoint digits_value (acc : Z) (s : string) : option Z :=
  match s with
  | EmptyString => Some acc
  | String c s' =>
      match digit_value c with
      | Some d => digits_value (10 * acc + d)%Z s'
      | None => None
      end
  end.

Definition decimal_int (s : string) : option Z :=
  match s with
  | EmptyString => None
  | String c s' =>
      if decide (c = "-"%char) then
        (if decide (s' = "") then None else Z.opp <$> digits_value 0 s')
      else if decide (c = "+"%char) then
        (if decide (s' = "") then None else digits_value 0 s')
      else digits_value 0 s
  end.

(** A network that accepts every request, and one that is down. *)
Definition transport_up : list http_request -> http_request -> outcome exn response :=
  fun _ _ => Ok (Response 200 "{}").

Definition transport_down : list http_request -> http_request -> outcome exn response :=
  fun _ _ => Raise (Exn "ConnectionError" "connection refused" "Traceback").

(** [def f(): raise ValueError("bad")] in module [app], and a function that
    returns. *)
Definition value_error_bad : exn :=
  Exn "ValueError" "bad" "Traceback (most recent call last): ValueError: bad".

Definition raises_bad : pyfunc unit Z :=
  PyFunc "app" "f" "f" (Some "Always fails.") (fun _ => raise value_error_bad).

Definition returns_seven : pyfunc unit Z :=
  PyFunc "app" "g" "g" None (fun _ => mret 7%Z).

(** The world right after import, nothing posted yet. *)
Definition fresh_world : world := World module_heap [].

(** [Alerter("T1", 42)], the same with [whitelist="ValueError"], and an
    environment with a whitelist. *)
Definition alerter_T1 : Alerter := __init__ "T1" 42 None None.

Definition alerter_whitelisting : Alerter :=
  __init__ "T1" 42 None (Some (PyStr "ValueError")).

Definition sample_environ : gmap string string :=
  {[ "ALERT_BOT_TOKEN" := "T1"; "ALERT_CHAT_ID" := "42";
     "ALERT_BOT_WHITELIST" := "KeyError" ]}.

(** An environment with the two required variables only, a second Alerter
    with another token and chat, and one that was given two lists of its
    own. *)
Definition required_environ : gmap string string :=
  {[ "ALERT_BOT_TOKEN" := "T1"; "ALERT_CHAT_ID" := "42" ]}.

Definition alerter_T2 : Alerter := __init__ "T2" 7 None None.

Definition alerter_own_lists : Alerter :=
  __init__ "T1" 42 (Some (PyList 5)) (Some (PyList 6)).

(** A world where the lists at 5 and 6 both hold ValueError, an Alerter
    whose blacklist is the list at 5 (and whose whitelist is the default),
    and one whose blacklist is the [str] KeyError. *)
Definition listed_world : world :=
  World (<[5 := ["ValueError"]]> (<[6 := ["ValueError"]]> module_heap)) [].

Definition alerter_blacklisting : Alerter :=
  __init__ "T1" 42 (Some (PyList 5)) None.

Definition alerter_blacklisting_key_error : Alerter :=
  __init__ "T1" 42 (Some (PyStr "KeyError")) None.

(** ** Facts about [str] containment *)

Module StrFacts.
Import Str.

Lemma append_nil_l s : "" +:+ s = s.
Proof. reflexivity. Qed.

Lemma append_cons a s t : String a s +:+ t = String a (s +:+ t).
Proof. reflexivity. Qed.

Lemma append_nil_r s : s +:+ "" = s.
Proof. induction s as [|a s IH]; [done|]. by rewrite append_cons, IH. Qed.

Lemma starts_with_app t q : starts_with t (t +:+ q) = true.
Proof.
  induction t as [|a t IH]; [done|].
  rewrite append_cons. simpl. by rewrite decide_True.
Qed.

Lemma starts_with_split t s :
  starts_with t s = true -> exists q, s = t +:+ q.
Proof.
  revert s. induction t as [|a t IH]; intros s H.
  - by exists s.
  - destruct s as [|b s]; simpl in H; [done|].
    destruct (decide (a = b)) as [->|]; [|done].
    destruct (IH _ H) as [q ->]. by exists q.
Qed.

Lemma starts_with_contains t s : starts_with t s = true -> contains t s = true.
Proof. intros H. destruct s; simpl; rewrite H; done. Qed.

Lemma contains_occurs t s : contains t s = true <-> occurs_in t s.
Proof.
  split.
  - induction s as [|b s IH]; simpl; intros H.
    + rewrite orb_false_r in H.
      destruct (starts_with_split _ _ H) as [q Hq]. by exists "", q.
    + apply orb_true_iff in H as [H|H].
      * destruct (starts_with_split _ _ H) as [q Hq]. by exists "", q.
      * destruct (IH H) as (p & q & ->). by exists (String b p), q.
  - intros (p & q & ->). induction p as [|b p IH].
    + rewrite append_nil_l. apply starts_with_contains, starts_with_app.
    + rewrite append_cons. simpl. apply orb_true_iff. right. exact IH.
Qed.

Lemma occurs_in_refl t : occurs_in t t.
Proof. exists "", "". by rewrite append_nil_l, append_nil_r. Qed.

(** Pieces of a concatenation occur in it. *)
Lemma occurs_in_app_l t s q : occurs_in t s -> occurs_in t (s +:+ q).
Proof.
  intros (p & r & ->). exists p, (r +:+ q).
  induction p as [|a p IH].
  - rewrite !append_nil_l. induction t as [|b t IHt]; [done|].
    by rewrite !append_cons, IHt.
  - by rewrite !append_cons, IH.
Qed.

Lemma occurs_in_app_r t s p : occurs_in t s -> occurs_in t (p +:+ s).
Proof.
  intros (p' & r & ->). exists (p +:+ p'), r.
  induction p as [|a p IH]; [done|]. by rewrite !append_cons, IH.
Qed.

End StrFacts.

(** ** Facts about the filters *)

Lemma nonempty_list h l : nonempty h (PyList l) <-> deref h l <> [].
Proof. unfold nonempty; simpl. by destruct (deref h l). Qed.

Lemma nonempty_str h s : nonempty h (PyStr s) <-> s <> "".
Proof.
  unfold nonempty; simpl. rewrite negb_true_iff.
  split; intros H.
  - intros ->. by rewrite String.eqb_refl in H.
  - destruct (String.eqb_spec s ""); [done|done].
Qed.

Lemma member_list h x l : member h x (PyList l) <-> x ∈ deref h l.
Proof. unfold member; simpl. apply bool_decide_eq_true. Qed.

Lemma member_str h x s : member h x (PyStr s) <-> Str.occurs_in x s.
Proof. unfold member; simpl. apply StrFacts.contains_occurs. Qed.

Lemma filter_nonempty_truth h c : filter_nonempty h c <-> truth h c = true.
Proof. symmetry. destruct c as [s|l]; [apply nonempty_str | apply nonempty_list]. Qed.

Lemma filter_holds_py_in h x c : filter_holds h x c <-> py_in h x c = true.
Proof. symmetry. destruct c as [s|l]; [apply member_str | apply member_list]. Qed.

Lemma alert_due_true h self T :
  alert_due h self T = true <->
  ~ (nonempty h (whitelist self) /\ member h T (whitelist self)) /\
  (~ nonempty h (blacklist self) \/ member h T (blacklist self)).
Proof.
  unfold alert_due, nonempty, member.
  destruct (truth h (whitelist self)), (py_in h T (whitelist self)),
    (truth h (blacklist self)), (py_in h T (blacklist self)); simpl;
    intuition congruence.
Qed.

(** A piece of a concatenation occurs in it. *)
Ltac find_occurrence :=
  solve [ apply StrFacts.occurs_in_refl
        | apply StrFacts.occurs_in_app_l; apply StrFacts.occurs_in_refl
        | apply StrFacts.occurs_in_app_r; find_occurrence ].

Section properties.

Variable py_int : string -> option Z.
Variable transport : list http_request -> http_request -> outcome exn response.

Lemma append_assoc (a b c : string) : (a +:+ b) +:+ c = a +:+ (b +:+ c).
Proof.
  induction a as [|x a IH]; [done|]. by rewrite !StrFacts.append_cons, IH.
Qed.

Lemma send_message_run self cid text kw w :
  let r := message_request self cid text
             (default None (kw_parse_mode kw))
             (default true (kw_disable_web_page_preview kw))
             (default false (kw_disable_notification kw)) in
  send_message transport self cid text kw w =
    (transport (w_posts w) r, World (w_heap w) (w_posts w ++ [r])%list).
Proof.
  simpl. unfold send_message, message_request, base_url.
  unfold mbind, M_bind, requests_post. rewrite append_assoc.
  by destruct (transport _ _).
Qed.

Lemma inner_on_return {A R} self (func : pyfunc A R) args w v w1 :
  fn_call func args w = (Ok v, w1) ->
  inner transport self func args w = (Ok v, w1).
Proof. intros H. unfold inner, try_except. by rewrite H. Qed.

Lemma inner_on_raise {A R} self (func : pyfunc A R) args w e w1 :
  fn_call func args w = (Raise e, w1) ->
  inner transport self func args w =
    if alert_due (w_heap w1) self (exc_type_name e)
    then match send_message transport self (chat_id self) (alert_text e func) html_kwargs w1 with
         | (Ok _, w2) => (Raise e, w2)
         | (Raise e', w2) => (Raise e', w2)
         end
    else (Raise e, w1).
Proof.
  intros H. unfold inner, try_except, alert_due. rewrite H.
  unfold mbind, M_bind, get_heap, raise, mret, M_ret, html_kwargs.
  destruct (truth _ (whitelist self) && _); [done|].
  destruct (negb _ || _); [|done].
  by destruct (send_message _ _ _ _ _ _) as [[r|e'] w2].
Qed.

Lemma send_outcome_cases self cid text kw w :
  (exists r w2, send_message transport self cid text kw w = (Ok r, w2)) \/
  (exists e' w2, send_message transport self cid text kw w = (Raise e', w2)).
Proof.
  destruct (send_message transport self cid text kw w) as [[r|e'] w2]; eauto.
Qed.

(** A failed delivery of the alert is what the caller sees. *)
Lemma inner_delivery_failure {A R} self (func : pyfunc A R) args w e w1 e' w2 :
  fn_call func args w = (Raise e, w1) ->
  alert_due (w_heap w1) self (exc_type_name e) = true ->
  send_message transport self (chat_id self) (alert_text e func) html_kwargs w1
    = (Raise e', w2) ->
  inner transport self func args w = (Raise e', w2).
Proof.
  intros Hf Hd Hs. rewrite (inner_on_raise _ _ _ _ _ _ Hf), Hd. by rewrite Hs.
Qed.

Lemma wrapper_suppressed {A R} self (func : pyfunc A R) args w e w1 :
  fn_call func args w = (Raise e, w1) ->
  alert_due (w_heap w1) self (exc_type_name e) = false ->
  fn_call (exception_alert transport self func) args w = (Raise e, w1).
Proof. intros Hf Hd. simpl. by rewrite (inner_on_raise _ _ _ _ _ _ Hf), Hd. Qed.

Lemma wrapper_alerted {A R} self (func : pyfunc A R) args w e w1 :
  fn_call func args w = (Raise e, w1) ->
  alert_due (w_heap w1) self (exc_type_name e) = true ->
  (fn_call (exception_alert transport self func) args w).2
    = (send_message transport self (chat_id self) (alert_text e func) html_kwargs w1).2.
Proof.
  intros Hf Hd. simpl. rewrite (inner_on_raise _ _ _ _ _ _ Hf), Hd.
  by destruct (send_message _ _ _ _ _ _) as [[r|e'] w2].
Qed.

Lemma from_environment_run environ w :
  from_environment py_int environ w =
    match environ !! "ALERT_BOT_TOKEN" with
    | None =>
        (Raise (KeyError "ALERT_BOT_TOKEN must be set in environment variables"), w)
    | Some token =>
        match environ !! "ALERT_CHAT_ID" with
        | None =>
            (Raise (KeyError "ALERT_CHAT_ID must be set in environment variables"), w)
        | Some cid =>
            let l1 := fresh (dom (w_heap w)) in
            let h1 := <[l1 := []]> (w_heap w) in
            let l2 := fresh (dom h1) in
            let w2 := World (<[l2 := []]> h1) (w_posts w) in
            match py_int cid with
            | Some n =>
                (Ok (mkAlerter token n
                       (match environ !! "ALERT_BOT_WHITELIST" with
                        | Some v => PyStr v
                        | None => PyList l1
                        end)
                       (match environ !! "ALERT_BOT_BLACKLIST" with
                        | Some v => PyStr v
                        | None => PyList l2
                        end)), w2)
            | None => (Raise (ValueError cid), w2)
            end
        end
    end.
Proof.
  unfold from_environment, environ_required, environ_get_or_list, new_list.
  unfold mbind, M_bind, mret, M_ret, raise.
  destruct (environ !! "ALERT_BOT_TOKEN") as [token|]; [|done].
  destruct (environ !! "ALERT_CHAT_ID") as [cid|]; [|done].
  simpl. by destruct (py_int cid).
Qed.

(** ** The wrapper *)

(** C1. When the wrapped call raises an exception of type name [T]: if the
    whitelist is not empty and [T] is in it, no send-message call occurs,
    whatever the blacklist holds; otherwise, if the blacklist is empty or
    [T] is in it, exactly one send-message call occurs, which posts the one
    alert request; otherwise no send-message call occurs. Not empty means a
    list with an element or a [str] with a character, and in it means an
    element of the list or an occurrence in the [str]; the filters are read
    in the heap the wrapped call leaves behind. *)
Theorem exception_alert_filter_decision {A R} (self : Alerter) (func : pyfunc A R)
    (args : A) (w w1 : world) (e : exn) :
  fn_call func args w = (Raise e, w1) ->
  let T := exc_type_name e in
  let h := w_heap w1 in
  let after := (fn_call (exception_alert transport self func) args w).2 in
  let whitelisted :=
    filter_nonempty h (whitelist self) /\ filter_holds h T (whitelist self) in
  (whitelisted -> after = w1)
  /\ (~ whitelisted ->
      ~ filter_nonempty h (blacklist self) \/ filter_holds h T (blacklist self) ->
      after = (send_message transport self (chat_id self) (alert_text e func)
                 html_kwargs w1).2
      /\ w_posts after
         = (w_posts w1 ++
              [ message_request self (chat_id self) (alert_text e func)
                  (Some "HTML") true false ])%list)
  /\ (~ whitelisted ->
      filter_nonempty h (blacklist self) /\ ~ filter_holds h T (blacklist self) ->
      after = w1).
Proof.
  clear py_int. intros Hf T h after whitelisted. subst after whitelisted. simpl.
  rewrite (inner_on_raise _ _ _ _ _ _ Hf). fold T h.
  rewrite !filter_nonempty_truth, !filter_holds_py_in.
  split; [|split].
  - intros Hwl.
    destruct (alert_due h self T) eqn:Hd; [|done].
    apply alert_due_true in Hd as [Hn _]. by destruct Hn.
  - intros Hwl Hbl.
    assert (alert_due h self T = true) as -> by (apply alert_due_true; tauto).
    rewrite send_message_run. simpl.
    by destruct (transport _ _).
  - intros Hwl [Hb Hm].
    destruct (alert_due h self T) eqn:Hd; [|done].
    apply alert_due_true in Hd as [_ [Hn|Hn]]; tauto.
Qed.

(** C2. When the wrapped call raises [e], the wrapper raises that same [e]
    once the filter and send logic has run to its end: at once when the
    alert is suppressed, and after the send when the send returns. *)
Theorem exception_alert_reraises {A R} (self : Alerter) (func : pyfunc A R)
    (args : A) (w w1 : world) (e : exn) :
  fn_call func args w = (Raise e, w1) ->
  (alert_due (w_heap w1) self (exc_type_name e) = false ->
     fn_call (exception_alert transport self func) args w = (Raise e, w1))
  /\ (forall r w2,
        alert_due (w_heap w1) self (exc_type_name e) = true ->
        send_message transport self (chat_id self) (alert_text e func) html_kwargs w1
          = (Ok r, w2) ->
        fn_call (exception_alert transport self func) args w = (Raise e, w2)).
Proof.
  intros Hf. simpl. rewrite (inner_on_raise _ _ _ _ _ _ Hf). split.
  - by intros ->.
  - intros r w2 -> Hs. by rewrite Hs.
Qed.

(** C3. When the wrapped call returns [v], the wrapper returns [v] and
    leaves the world as the wrapped call left it: nothing is posted. *)
Theorem exception_alert_passes_return {A R} (self : Alerter) (func : pyfunc A R)
    (args : A) (w w1 : world) (v : R) :
  fn_call func args w = (Ok v, w1) ->
  fn_call (exception_alert transport self func) args w = (Ok v, w1)
  /\ w_posts (fn_call (exception_alert transport self func) args w).2 = w_posts w1.
Proof.
  intros Hf. simpl. by rewrite (inner_on_return _ _ _ _ _ _ Hf).
Qed.

(** C6. An alert that is sent is one request, to the chat id of the
    Alerter, with [parse_mode] set to HTML; its text holds the type name of
    the exception, its string form, the name and the module of the wrapped
    function, and the formatted traceback between [<pre>] and [</pre>]. *)
Theorem alert_message_contents {A R} (self : Alerter) (func : pyfunc A R)
    (args : A) (w w1 : world) (e : exn) :
  fn_call func args w = (Raise e, w1) ->
  alert_due (w_heap w1) self (exc_type_name e) = true ->
  let text := alert_text e func in
  let r := message_request self (chat_id self) text (Some "HTML") true false in
  w_posts (fn_call (exception_alert transport self func) args w).2
    = (w_posts w1 ++ [r])%list
  /\ Str.occurs_in (exc_type_name e) text
  /\ Str.occurs_in (exc_str e) text
  /\ Str.occurs_in (fn_name func) text
  /\ Str.occurs_in (fn_module func) text
  /\ Str.occurs_in ("<pre>" +:+ exc_format_exc e +:+ "</pre>") text.
Proof.
  intros Hf Hd text r. split.
  - simpl. rewrite (inner_on_raise _ _ _ _ _ _ Hf), Hd, send_message_run.
    simpl. by destruct (transport _ _).
  - subst text. unfold alert_text. repeat split; find_occurrence.
Qed.

(** ** Sending *)

(** C7. A call of [send_message] posts one request, to
    [https://api.telegram.org/bot<token>/sendMessage] with the token of the
    Alerter; the body has the five fields chat_id, text, parse_mode,
    disable_web_page_preview and disable_notification, with the values
    passed; what the transport answers is what the caller gets. *)
Theorem send_message_posts_once (self : Alerter) (cid : Z) (text : string)
    (kw : send_kwargs) (w : world) :
  let r := HttpRequest "POST"
             ("https://api.telegram.org/bot" +:+ bot_token self +:+ "/sendMessage")
             [ ("chat_id", JInt cid);
               ("text", JStr text);
               ("parse_mode", json_of_str_or_none (default None (kw_parse_mode kw)));
               ("disable_web_page_preview",
                  JBool (default true (kw_disable_web_page_preview kw)));
               ("disable_notification",
                  JBool (default false (kw_disable_notification kw))) ] in
  (send_message transport self cid text kw w).1 = transport (w_posts w) r
  /\ w_posts (send_message transport self cid text kw w).2 = (w_posts w ++ [r])%list
  /\ w_heap (send_message transport self cid text kw w).2 = w_heap w
  /\ (req_json r).*1 = [ "chat_id"; "text"; "parse_mode"; "disable_web_page_preview";
                       "disable_notification" ].
Proof.
  intros r. pose proof (send_message_run self cid text kw w) as H.
  simpl in H. fold r in H. rewrite H. done.
Qed.

(** C8. [custom_alert] is [send_message] to the chat id of the Alerter: for
    every text and every choice of keyword arguments, given or left out,
    the two calls do the same and give the same; left out, the link
    preview is off and the notification is on. *)
Theorem custom_alert_is_send_message (self : Alerter) (text : string)
    (kw : send_kwargs) (w : world) :
  custom_alert transport self text kw w
    = send_message transport self (chat_id self) text kw w
  /\ w_posts (custom_alert transport self text no_kwargs w).2
      = (w_posts w ++ [message_request self (chat_id self) text None true false])%list.
Proof.
  split.
  - unfold custom_alert. by rewrite !send_message_run.
  - unfold custom_alert. by rewrite send_message_run.
Qed.

(** C9. The function [exception_alert] returns reports the name, the
    module and the docstring of the function it wraps, and so does the one
    the call of the Alerter itself returns. *)
Theorem exception_alert_keeps_metadata {A R} (self : Alerter) (func : pyfunc A R) :
  let wrapped := exception_alert transport self func in
  fn_name wrapped = fn_name func
  /\ fn_module wrapped = fn_module func
  /\ fn_doc wrapped = fn_doc func
  /\ fn_qualname wrapped = fn_qualname func
  /\ __call__ transport self func = wrapped.
Proof. done. Qed.

(** ** Construction from the environment *)

Lemma occurs_in_nonempty t s : Str.occurs_in t s -> t <> "" -> s <> "".
Proof.
  intros (p & q & ->) Ht Hs. destruct p as [|a p]; [|done].
  rewrite StrFacts.append_nil_l in Hs. by destruct t.
Qed.

(** C5. [from_environment] raises KeyError with a message that names
    ALERT_BOT_TOKEN when that variable is not set, and one that names
    ALERT_CHAT_ID when only that one is not set; with both set it passes
    the chat id through [int]: where [int] raises, that ValueError is the
    outcome, and where it gives [n] the Alerter holds the token and [n]. *)
Theorem from_environment_configuration (environ : gmap string string) (w : world) :
  (environ !! "ALERT_BOT_TOKEN" = None ->
     exists msg, (from_environment py_int environ w).1 = Raise (KeyError msg)
                 /\ Str.occurs_in "ALERT_BOT_TOKEN" msg)
  /\ (is_Some (environ !! "ALERT_BOT_TOKEN") -> environ !! "ALERT_CHAT_ID" = None ->
     exists msg, (from_environment py_int environ w).1 = Raise (KeyError msg)
                 /\ Str.occurs_in "ALERT_CHAT_ID" msg)
  /\ (forall token cid,
       environ !! "ALERT_BOT_TOKEN" = Some token ->
       environ !! "ALERT_CHAT_ID" = Some cid ->
       match py_int cid with
       | None => (from_environment py_int environ w).1 = Raise (ValueError cid)
       | Some n => exists a, (from_environment py_int environ w).1 = Ok a
                             /\ bot_token a = token /\ chat_id a = n
       end).
Proof.
  rewrite from_environment_run. split; [|split].
  - intros ->. eexists; split; [done|].
    by exists "", " must be set in environment variables".
  - intros [token ->] ->. eexists; split; [done|].
    by exists "", " must be set in environment variables".
  - intros token cid -> ->. simpl.
    destruct (py_int cid) as [n|]; [|done]. eexists; by split.
Qed.

(** C10. An Alerter built by [from_environment] holds the value of
    ALERT_BOT_WHITELIST, and of ALERT_BOT_BLACKLIST, as the [str] it is, so
    membership in that filter is occurrence in the string: the wrapper
    sends no alert for an exception whose type name occurs anywhere in the
    whitelist value, and with that out of the way sends one for a type name
    that occurs anywhere in the blacklist value. *)
Theorem environment_filter_is_substring (environ : gmap string string)
    (w w' : world) (a : Alerter) :
  from_environment py_int environ w = (Ok a, w') ->
  (forall s, environ !! "ALERT_BOT_WHITELIST" = Some s ->
     whitelist a = PyStr s
     /\ (forall h T, member h T (whitelist a) <-> Str.occurs_in T s)
     /\ (forall (A R : Type) (func : pyfunc A R) args w0 w1 e,
           fn_call func args w0 = (Raise e, w1) ->
           exc_type_name e <> "" ->
           Str.occurs_in (exc_type_name e) s ->
           fn_call (exception_alert transport a func) args w0 = (Raise e, w1)))
  /\ (forall s, environ !! "ALERT_BOT_BLACKLIST" = Some s ->
     blacklist a = PyStr s
     /\ (forall h T, member h T (blacklist a) <-> Str.occurs_in T s)
     /\ (forall (A R : Type) (func : pyfunc A R) args w0 w1 e,
           fn_call func args w0 = (Raise e, w1) ->
           ~ (nonempty (w_heap w1) (whitelist a)
              /\ member (w_heap w1) (exc_type_name e) (whitelist a)) ->
           Str.occurs_in (exc_type_name e) s ->
           exists r, w_posts (fn_call (exception_alert transport a func) args w0).2
                     = (w_posts w1 ++ [r])%list)).
Proof.
  rewrite from_environment_run.
  destruct (environ !! "ALERT_BOT_TOKEN") as [token|]; [|done].
  destruct (environ !! "ALERT_CHAT_ID") as [cid|]; [|done].
  cbv zeta. destruct (py_int cid) as [n|]; [|done].
  intros [= <- <-]. split.
  - intros s ->. cbn [whitelist blacklist]. split; [done|]. split.
    + intros h T. apply member_str.
    + intros A R func args w0 w1 e Hf Hne Hocc.
      apply wrapper_suppressed; [done|].
      destruct (alert_due _ _ _) eqn:Hd; [|done].
      apply alert_due_true in Hd as [Hn _]. destruct Hn. simpl. split.
      * apply nonempty_str. by eapply occurs_in_nonempty.
      * by apply member_str.
  - intros s ->. cbn [whitelist blacklist]. split; [done|]. split.
    + intros h T. apply member_str.
    + intros A R func args w0 w1 e Hf Hwl Hocc.
      rewrite (wrapper_alerted _ _ _ _ _ _ Hf).
      * rewrite send_message_run. simpl. eauto.
      * apply alert_due_true. split; [done|]. right. by apply member_str.
Qed.

End properties.

(** ** Default filters *)

Lemma init_default_filters tok1 cid1 tok2 cid2 :
  whitelist (__init__ tok1 cid1 None None) = whitelist (__init__ tok2 cid2 None None)
  /\ blacklist (__init__ tok1 cid1 None None) = blacklist (__init__ tok2 cid2 None None).
Proof. done. Qed.

Lemma deref_list_append h l x : deref (list_append h l x) l = (deref h l ++ [x])%list.
Proof. unfold list_append, deref. by rewrite lookup_total_insert_eq. Qed.

(** C4, which the code does not meet: two Alerters built without the filter
    arguments hold the same two list objects, so an append to the whitelist
    (or the blacklist) of the first shows in the second. *)
Theorem default_filters_are_shared :
  let a := __init__ "T1" 1 None None in
  let b := __init__ "T2" 2 None None in
  read module_heap (whitelist b) = ListContents []
  /\ read module_heap (blacklist b) = ListContents []
  /\ (exists h', container_append module_heap (whitelist a) "ValueError" = Some h'
                 /\ read h' (whitelist b) = ListContents ["ValueError"])
  /\ (exists h', container_append module_heap (blacklist a) "KeyError" = Some h'
                 /\ read h' (blacklist b) = ListContents ["KeyError"]).
Proof.
  simpl. repeat split.
  - eexists; split; [done|]. by rewrite deref_list_append.
  - eexists; split; [done|]. by rewrite deref_list_append.
Qed.

(** What follows for the second Alerter: its wrapper alerted on ValueError
    before the append to the first one's whitelist, and is silent after. *)
Lemma shared_whitelist_silences_other :
  let a := __init__ "T1" 1 None None in
  let b := __init__ "T2" 2 None None in
  let h' := list_append module_heap default_whitelist "ValueError" in
  container_append module_heap (whitelist a) "ValueError" = Some h'
  /\ length (w_posts (fn_call (exception_alert transport_up b raises_bad) tt
                        fresh_world).2) = 1
  /\ w_posts (fn_call (exception_alert transport_up b raises_bad) tt
                (World h' [])).2 = [].
Proof. by vm_compute. Qed.

(** With the variables absent, [from_environment] gives each Alerter lists
    of its own. *)
Lemma from_environment_fresh_filters py_int environ w a w' :
  from_environment py_int environ w = (Ok a, w') ->
  environ !! "ALERT_BOT_WHITELIST" = None ->
  environ !! "ALERT_BOT_BLACKLIST" = None ->
  exists l1 l2, whitelist a = PyList l1 /\ blacklist a = PyList l2
                /\ l1 <> l2 /\ w_heap w !! l1 = None /\ w_heap w !! l2 = None.
Proof.
  rewrite from_environment_run.
  destruct (environ !! "ALERT_BOT_TOKEN") as [token|]; [|done].
  destruct (environ !! "ALERT_CHAT_ID") as [cid|]; [|done].
  cbv zeta. destruct (py_int cid) as [n|]; [|done].
  intros [= <- <-] -> ->. cbn [whitelist blacklist].
  set (l1 := fresh (dom (w_heap w))).
  set (l2 := fresh (dom (<[l1:=[]]> (w_heap w)))).
  assert (l1 ∉ dom (w_heap w)) as H1 by apply is_fresh.
  assert (l2 ∉ dom (<[l1:=[]]> (w_heap w))) as H2 by apply is_fresh.
  rewrite dom_insert_L in H2.
  exists l1, l2. repeat split.
  - intros E. apply H2. rewrite E. set_solver.
  - by apply not_elem_of_dom.
  - apply not_elem_of_dom. set_solver.
Qed.

(** ** The theorems at the sample data *)

Lemma exception_alert_filter_decision_witness :
  (* no filters: one alert *)
  w_posts (fn_call (exception_alert transport_up alerter_T1 raises_bad) tt
             fresh_world).2
    = [ message_request alerter_T1 42 (alert_text value_error_bad raises_bad)
          (Some "HTML") true false ]
  (* a hit in the whitelist, a [str] *)
  /\ (fn_call (exception_alert transport_up alerter_whitelisting raises_bad) tt
        fresh_world).2 = fresh_world
  (* a hit in both lists: the whitelist wins *)
  /\ (fn_call (exception_alert transport_up alerter_own_lists raises_bad) tt
        listed_world).2 = listed_world
  (* a hit in the blacklist, a list: one alert *)
  /\ w_posts (fn_call (exception_alert transport_up alerter_blacklisting raises_bad) tt
                listed_world).2
     = [ message_request alerter_blacklisting 42 (alert_text value_error_bad raises_bad)
           (Some "HTML") true false ]
  (* a blacklist that misses *)
  /\ (fn_call (exception_alert transport_up alerter_blacklisting_key_error raises_bad) tt
        fresh_world).2 = fresh_world.
Proof.
  assert (deref (w_heap listed_world) 5 = ["ValueError"]) as H5 by reflexivity.
  assert (deref (w_heap listed_world) 6 = ["ValueError"]) as H6 by reflexivity.
  assert (deref (w_heap listed_world) default_whitelist = []) as H1 by reflexivity.
  assert (deref (w_heap fresh_world) default_whitelist = []) as H1' by reflexivity.
  assert (deref (w_heap fresh_world) default_blacklist = []) as H0' by reflexivity.
  split; [|split; [|split; [|split]]].
  - destruct (exception_alert_filter_decision transport_up alerter_T1 raises_bad tt
                fresh_world fresh_world value_error_bad eq_refl) as (_ & H & _).
    apply H.
    + intros [Hn _]. apply Hn. exact H1'.
    + left. intros Hn. apply Hn. exact H0'.
  - destruct (exception_alert_filter_decision transport_up alerter_whitelisting
                raises_bad tt fresh_world fresh_world value_error_bad eq_refl)
      as (H & _ & _).
    apply H. split.
    + discriminate.
    + apply StrFacts.occurs_in_refl.
  - destruct (exception_alert_filter_decision transport_up alerter_own_lists
                raises_bad tt listed_world listed_world value_error_bad eq_refl)
      as (H & _ & _).
    apply H.
    change (deref (w_heap listed_world) 6 <> []
            /\ "ValueError" ∈ deref (w_heap listed_world) 6).
    rewrite H6. split.
    + discriminate.
    + apply list_elem_of_here.
  - destruct (exception_alert_filter_decision transport_up alerter_blacklisting
                raises_bad tt listed_world listed_world value_error_bad eq_refl)
      as (_ & H & _).
    apply H.
    + intros [Hn _]. apply Hn. exact H1.
    + right.
      change ("ValueError" ∈ deref (w_heap listed_world) 5).
      rewrite H5. apply list_elem_of_here.
  - destruct (exception_alert_filter_decision transport_up
                alerter_blacklisting_key_error raises_bad tt fresh_world fresh_world
                value_error_bad eq_refl) as (_ & _ & H).
    apply H.
    + intros [Hn _]. apply Hn. exact H1'.
    + split.
      * discriminate.
      * intros Ho. apply StrFacts.contains_occurs in Ho. discriminate Ho.
Defined.

Lemma exception_alert_reraises_witness :
  fn_call raises_bad tt fresh_world = (Raise value_error_bad, fresh_world)
  /\ (fn_call (exception_alert transport_up alerter_T1 raises_bad) tt fresh_world).1
       = Raise value_error_bad
  /\ fn_call (exception_alert transport_up alerter_whitelisting raises_bad) tt fresh_world
       = (Raise value_error_bad, fresh_world).
Proof.
  split; [reflexivity|]. split.
  - destruct (exception_alert_reraises transport_up alerter_T1 raises_bad tt
                fresh_world fresh_world value_error_bad eq_refl) as [_ H].
    erewrite H; [reflexivity|reflexivity|reflexivity].
  - destruct (exception_alert_reraises transport_up alerter_whitelisting raises_bad tt
                fresh_world fresh_world value_error_bad eq_refl) as [H _].
    apply H. reflexivity.
Defined.

Lemma exception_alert_passes_return_witness :
  fn_call returns_seven tt fresh_world = (Ok 7%Z, fresh_world)
  /\ fn_call (exception_alert transport_up alerter_T1 returns_seven) tt fresh_world
       = (Ok 7%Z, fresh_world).
Proof.
  split; [reflexivity|].
  apply (exception_alert_passes_return transport_up alerter_T1 returns_seven tt
           fresh_world fresh_world 7%Z eq_refl).
Defined.

Lemma alert_message_contents_witness :
  fn_call raises_bad tt fresh_world = (Raise value_error_bad, fresh_world)
  /\ alert_due (w_heap fresh_world) alerter_T1 "ValueError" = true
  /\ w_posts (fn_call (exception_alert transport_up alerter_T1 raises_bad) tt
                fresh_world).2
     = [ message_request alerter_T1 42 (alert_text value_error_bad raises_bad)
           (Some "HTML") true false ]
  /\ Str.occurs_in "ValueError" (alert_text value_error_bad raises_bad)
  /\ Str.occurs_in "bad" (alert_text value_error_bad raises_bad).
Proof.
  split; [reflexivity|]. split; [reflexivity|].
  destruct (alert_message_contents transport_up alerter_T1 raises_bad tt
              fresh_world fresh_world value_error_bad eq_refl eq_refl)
    as (Hp & Ht & Hs & _).
  split; [exact Hp|]. split; [exact Ht|exact Hs].
Defined.

Lemma environment_filter_is_substring_witness :
  from_environment decimal_int sample_environ fresh_world
    = (Ok (mkAlerter "T1" 42 (PyStr "KeyError") (PyList 3)),
       World (<[3 := []]> (<[2 := []]> module_heap)) [])
  /\ member module_heap "Error" (PyStr "KeyError").
Proof.
  split; [by vm_compute|].
  destruct (environment_filter_is_substring decimal_int transport_up sample_environ
              fresh_world _ _ eq_refl) as [H _].
  destruct (H "KeyError" eq_refl) as (_ & Hm & _).
  apply (Hm module_heap "Error"). by exists "Key", "".
Defined.

(** The scenario of the description: token T1, chat 42, no filters, a
    function that raises ValueError("bad"). *)
Example scenario_no_filters :
  fn_call (exception_alert transport_up alerter_T1 raises_bad) tt fresh_world
  = (Raise value_error_bad,
     World module_heap
       [ HttpRequest "POST" "https://api.telegram.org/botT1/sendMessage"
           [ ("chat_id", JInt 42);
             ("text", JStr (alert_text value_error_bad raises_bad));
             ("parse_mode", JStr "HTML");
             ("disable_web_page_preview", JBool true);
             ("disable_notification", JBool false) ] ]).
Proof. reflexivity. Qed.

Example scenario_whitelisted :
  fn_call (exception_alert transport_up alerter_whitelisting raises_bad) tt fresh_world
  = (Raise value_error_bad, fresh_world).
Proof. reflexivity. Qed.

Example scenario_blacklist_miss :
  fn_call (exception_alert transport_up
             (__init__ "T1" 42 (Some (PyStr "KeyError")) None) raises_bad) tt fresh_world
  = (Raise value_error_bad, fresh_world).
Proof. reflexivity. Qed.

(** The network down: the caller gets the delivery failure, not the
    ValueError. *)
Example scenario_delivery_fails :
  (fn_call (exception_alert transport_down alerter_T1 raises_bad) tt fresh_world).1
  = Raise (Exn "ConnectionError" "connection refused" "Traceback").
Proof. reflexivity. Qed.

Example scenario_missing_token :
  (from_environment decimal_int {[ "ALERT_CHAT_ID" := "42" ]} fresh_world).1
  = Raise (KeyError "ALERT_BOT_TOKEN must be set in environment variables").
Proof. reflexivity. Qed.

Example scenario_chat_id_not_a_number :
  (from_environment decimal_int
     {[ "ALERT_BOT_TOKEN" := "T1"; "ALERT_CHAT_ID" := "forty-two" ]} fresh_world).1
  = Raise (ValueError "forty-two").
Proof. by vm_compute. Qed.

(** ** Further properties of the wrapper *)

Section wrapper_more.

Variable transport : list http_request -> http_request -> outcome exn response.

(** The request of the alert for [e] raised in [func]. *)
Local Abbreviation alert_request self e func :=
  (message_request self (chat_id self) (alert_text e func) (Some "HTML") true false).

Lemma wrapper_run_raise {A R} self (func : pyfunc A R) args w e w1 :
  fn_call func args w = (Raise e, w1) ->
  fn_call (exception_alert transport self func) args w =
    if alert_due (w_heap w1) self (exc_type_name e)
    then (match transport (w_posts w1) (alert_request self e func) with
          | Ok _ => Raise e
          | Raise e' => Raise e'
          end,
          World (w_heap w1) (w_posts w1 ++ [alert_request self e func])%list)
    else (Raise e, w1).
Proof.
  intros Hf. simpl. rewrite (inner_on_raise _ _ _ _ _ _ _ Hf).
  destruct (alert_due _ _ _); [|done].
  rewrite send_message_run. simpl. by destruct (transport _ _).
Qed.

(** X1. An exception of the wrapped function is never swallowed: the wrapper
    raises, either that exception or, when an alert was due and its delivery
    raised, the exception of the delivery. *)
Theorem wrapper_never_swallows {A R} (self : Alerter) (func : pyfunc A R)
    (args : A) (w w1 : world) (e : exn) :
  fn_call func args w = (Raise e, w1) ->
  exists e' w2,
    fn_call (exception_alert transport self func) args w = (Raise e', w2)
    /\ (e' = e
        \/ (alert_due (w_heap w1) self (exc_type_name e) = true
            /\ transport (w_posts w1) (alert_request self e func) = Raise e')).
Proof.
  intros Hf. rewrite (wrapper_run_raise _ _ _ _ _ _ Hf).
  destruct (alert_due _ _ _) eqn:Hd; [|by eauto].
  destruct (transport _ _) as [r|e'] eqn:Ht; eauto 6.
Qed.

(** X2. The wrapper returns only what the wrapped function returned, in the
    world the wrapped function left: it has no result of its own. *)
Theorem wrapper_returns_only_what_func_returns {A R} (self : Alerter)
    (func : pyfunc A R) (args : A) (w w2 : world) (v : R) :
  fn_call (exception_alert transport self func) args w = (Ok v, w2) ->
  fn_call func args w = (Ok v, w2).
Proof.
  destruct (fn_call func args w) as [[v'|e] w1] eqn:Hf.
  - simpl. by rewrite (inner_on_return _ _ _ _ _ _ _ Hf).
  - rewrite (wrapper_run_raise _ _ _ _ _ _ Hf).
    destruct (alert_due _ _ _); [|done]. by destruct (transport _ _).
Qed.

(** X3. When the alert is due and [requests.post] raises, the caller gets that
    exception in place of the one the wrapped function raised, and the
    request stays in the log as the one request added. *)
Theorem wrapper_delivery_failure_replaces {A R} (self : Alerter)
    (func : pyfunc A R) (args : A) (w w1 : world) (e e' : exn) :
  fn_call func args w = (Raise e, w1) ->
  alert_due (w_heap w1) self (exc_type_name e) = true ->
  transport (w_posts w1) (alert_request self e func) = Raise e' ->
  fn_call (exception_alert transport self func) args w
    = (Raise e', World (w_heap w1) (w_posts w1 ++ [alert_request self e func])%list).
Proof.
  intros Hf Hd Ht. by rewrite (wrapper_run_raise _ _ _ _ _ _ Hf), Hd, Ht.
Qed.

(** X4. Whatever the wrapped call does and however the delivery goes, the
    wrapper leaves every list object as the wrapped call left it and adds at
    most one request after those already in the log. *)
Theorem wrapper_frame {A R} (self : Alerter) (func : pyfunc A R) (args : A)
    (w : world) :
  let w1 := (fn_call func args w).2 in
  let w2 := (fn_call (exception_alert transport self func) args w).2 in
  w_heap w2 = w_heap w1
  /\ exists added, w_posts w2 = (w_posts w1 ++ added)%list /\ length added <= 1.
Proof.
  destruct (fn_call func args w) as [[v|e] w1] eqn:Hf; cbn zeta.
  - cbn [fn_call exception_alert wraps].
    rewrite (inner_on_return _ _ _ _ _ _ _ Hf). simpl.
    split; [done|]. exists []. rewrite app_nil_r. split; [done|]. simpl. lia.
  - rewrite (wrapper_run_raise _ _ _ _ _ _ Hf).
    destruct (alert_due _ _ _); simpl.
    + split; [done|]. eexists [_]. split; [done|]. simpl. lia.
    + split; [done|]. exists []. rewrite app_nil_r. split; [done|]. simpl. lia.
Qed.

(** The text of an alert names the function that was decorated first, also
    when the decorated function is decorated again. *)
Lemma alert_text_of_wrapper {A R} (self : Alerter) (func : pyfunc A R) (e : exn) :
  alert_text e (exception_alert transport self func) = alert_text e func.
Proof. done. Qed.

Lemma alert_text_names_func {A R} (func : pyfunc A R) (e : exn) :
  Str.occurs_in (fn_name func) (alert_text e func)
  /\ Str.occurs_in (fn_module func) (alert_text e func).
Proof. unfold alert_text. split; find_occurrence. Qed.

(** X5. A function decorated by [first] and then by [second], with the network
    answering every request: an exception both let through is alerted twice,
    by [first] and then by [second], each text naming the function itself
    and its module rather than [inner], and then the exception is raised. *)
Theorem stacked_decorators_alert_twice {A R} (first second : Alerter)
    (func : pyfunc A R) (args : A) (w w1 : world) (e : exn) :
  (forall log r, exists resp, transport log r = Ok resp) ->
  fn_call func args w = (Raise e, w1) ->
  alert_due (w_heap w1) first (exc_type_name e) = true ->
  alert_due (w_heap w1) second (exc_type_name e) = true ->
  exists t1 t2,
    fn_call (exception_alert transport second (exception_alert transport first func))
      args w
    = (Raise e,
       World (w_heap w1)
         (w_posts w1 ++
            [ message_request first (chat_id first) t1 (Some "HTML") true false;
              message_request second (chat_id second) t2 (Some "HTML") true false ])%list)
    /\ Str.occurs_in (fn_name func) t1 /\ Str.occurs_in (fn_module func) t1
    /\ Str.occurs_in (fn_name func) t2 /\ Str.occurs_in (fn_module func) t2.
Proof.
  intros Hup Hf Hd1 Hd2.
  exists (alert_text e func), (alert_text e func).
  pose proof (wrapper_run_raise first func args w e w1 Hf) as H1.
  rewrite Hd1 in H1.
  destruct (Hup (w_posts w1) (alert_request first e func)) as [resp1 Hr1].
  rewrite Hr1 in H1.
  rewrite (wrapper_run_raise second _ args w e _ H1).
  cbn [w_heap w_posts]. rewrite Hd2, alert_text_of_wrapper.
  destruct (Hup (w_posts w1 ++ [alert_request first e func])%list
              (alert_request second e func)) as [resp2 Hr2].
  rewrite Hr2, <- app_assoc. split; [done|].
  destruct (alert_text_names_func func e). done.
Qed.

(** ** Filters and other list objects *)

Lemma deref_list_append_ne h l l' x :
  l <> l' -> deref (list_append h l x) l' = deref h l'.
Proof. intros Hne. unfold list_append, deref. by rewrite lookup_total_insert_ne. Qed.

Lemma truth_list_append_ne h l x c :
  c <> PyList l -> truth (list_append h l x) c = truth h c.
Proof.
  intros Hc. destruct c as [s|l']; [done|]. simpl.
  rewrite deref_list_append_ne; [done|]. by intros ->.
Qed.

Lemma py_in_list_append_ne h l x T c :
  c <> PyList l -> py_in (list_append h l x) T c = py_in h T c.
Proof.
  intros Hc. destruct c as [s|l']; [done|]. simpl.
  rewrite deref_list_append_ne; [done|]. by intros ->.
Qed.

Lemma read_list_append_ne h l x c :
  c <> PyList l -> read (list_append h l x) c = read h c.
Proof.
  intros Hc. destruct c as [s|l']; [done|]. simpl.
  rewrite deref_list_append_ne; [done|]. by intros ->.
Qed.

(** X6. An append to a list object that is not one of the two filters of an
    Alerter changes neither what its filters read nor the exception types it
    alerts on. *)
Theorem append_elsewhere_keeps_filters (self : Alerter)
    (h : gmap loc (list string)) (l : loc) (x : string) :
  whitelist self <> PyList l ->
  blacklist self <> PyList l ->
  read (list_append h l x) (whitelist self) = read h (whitelist self)
  /\ read (list_append h l x) (blacklist self) = read h (blacklist self)
  /\ forall T, alert_due (list_append h l x) self T = alert_due h self T.
Proof.
  intros Hw Hb. split; [by apply read_list_append_ne|].
  split; [by apply read_list_append_ne|].
  intros T. unfold alert_due.
  by rewrite !truth_list_append_ne, !py_in_list_append_ne.
Qed.

(** ** Sends one after the other *)

Lemma custom_alert_run self text kw w :
  let r := message_request self (chat_id self) text
             (default None (kw_parse_mode kw))
             (default true (kw_disable_web_page_preview kw))
             (default false (kw_disable_notification kw)) in
  custom_alert transport self text kw w =
    (transport (w_posts w) r, World (w_heap w) (w_posts w ++ [r])%list).
Proof. intros r. unfold custom_alert. by rewrite send_message_run. Qed.

(** X7. [self.custom_alert(t1, ...); self.custom_alert(t2, ...)]: when the first
    send returns, both requests are in the log in that order and the second
    answer is the result; when the first raises, the second is never posted. *)
Theorem custom_alerts_in_sequence (self : Alerter) (t1 t2 : string)
    (kw1 kw2 : send_kwargs) (w : world) :
  let r1 := message_request self (chat_id self) t1
              (default None (kw_parse_mode kw1))
              (default true (kw_disable_web_page_preview kw1))
              (default false (kw_disable_notification kw1)) in
  let r2 := message_request self (chat_id self) t2
              (default None (kw_parse_mode kw2))
              (default true (kw_disable_web_page_preview kw2))
              (default false (kw_disable_notification kw2)) in
  let run := (custom_alert transport self t1 kw1
                ≫= fun _ => custom_alert transport self t2 kw2) w in
  match transport (w_posts w) r1 with
  | Ok _ => run = (transport (w_posts w ++ [r1])%list r2,
                   World (w_heap w) (w_posts w ++ [r1; r2])%list)
  | Raise e => run = (Raise e, World (w_heap w) (w_posts w ++ [r1])%list)
  end.
Proof.
  intros r1 r2 run. subst run. unfold mbind, M_bind.
  rewrite custom_alert_run. fold r1.
  destruct (transport (w_posts w) r1) as [resp|e]; [|done].
  rewrite custom_alert_run. cbn [w_heap w_posts]. fold r2.
  by rewrite <- app_assoc.
Qed.

(** ** What a request tells about the call *)

Lemma length_append (x s : string) :
  String.length (x +:+ s) = String.length x + String.length s.
Proof. induction x as [|a x IH]; [done|]. rewrite StrFacts.append_cons. simpl. by rewrite IH. Qed.

Lemma append_inv_head (a x y : string) : a +:+ x = a +:+ y -> x = y.
Proof.
  induction a as [|c a IH]; [done|].
  rewrite !StrFacts.append_cons. intros [= H]. by apply IH.
Qed.

Lemma append_inv_tail (x y s : string) : x +:+ s = y +:+ s -> x = y.
Proof.
  revert y. induction x as [|c x IH]; intros [|d y] H; [done| | |].
  - apply (f_equal String.length) in H.
    rewrite StrFacts.append_nil_l, length_append in H. simpl in H. lia.
  - apply (f_equal String.length) in H.
    rewrite StrFacts.append_nil_l, length_append in H. simpl in H. lia.
  - rewrite !StrFacts.append_cons in H. injection H as -> H. f_equal. by apply IH.
Qed.

Lemma json_of_str_or_none_inj (o o' : option string) :
  json_of_str_or_none o = json_of_str_or_none o' -> o = o'.
Proof. destruct o, o'; simpl; congruence. Qed.

(** X8. The request [send_message] posts carries the whole call: two calls that
    post the same request had the same bot token, chat id and text, and the
    same values, given or default, for the three keyword arguments. *)
Theorem posted_request_determines_call (a b : Alerter) (cid cid' : Z)
    (text text' : string) (kw kw' : send_kwargs) (w w' : world) :
  last (w_posts (send_message transport a cid text kw w).2)
    = last (w_posts (send_message transport b cid' text' kw' w').2) ->
  bot_token a = bot_token b /\ cid = cid' /\ text = text'
  /\ default None (kw_parse_mode kw) = default None (kw_parse_mode kw')
  /\ default true (kw_disable_web_page_preview kw)
      = default true (kw_disable_web_page_preview kw')
  /\ default false (kw_disable_notification kw)
      = default false (kw_disable_notification kw').
Proof.
  rewrite !send_message_run. cbn [snd w_posts]. rewrite !last_snoc.
  unfold message_request. intros [= Hurl -> -> Hpm -> ->].
  apply append_inv_head, append_inv_tail in Hurl.
  apply json_of_str_or_none_inj in Hpm. done.
Qed.

End wrapper_more.

(** ** Further properties of the construction from the environment *)

Section environment_more.

Variable py_int : string -> option Z.
Variable transport : list http_request -> http_request -> outcome exn response.

(** A successful construction, spelled out. *)
Lemma from_environment_ok environ w a w' :
  from_environment py_int environ w = (Ok a, w') ->
  exists l1 l2,
    l1 <> l2 /\ w_heap w !! l1 = None /\ w_heap w !! l2 = None
    /\ w_heap w' = <[l2 := []]> (<[l1 := []]> (w_heap w))
    /\ w_posts w' = w_posts w
    /\ environ !! "ALERT_BOT_TOKEN" = Some (bot_token a)
    /\ whitelist a = match environ !! "ALERT_BOT_WHITELIST" with
                     | Some v => PyStr v
                     | None => PyList l1
                     end
    /\ blacklist a = match environ !! "ALERT_BOT_BLACKLIST" with
                     | Some v => PyStr v
                     | None => PyList l2
                     end.
Proof.
  rewrite from_environment_run.
  destruct (environ !! "ALERT_BOT_TOKEN") as [token|]; [|done].
  destruct (environ !! "ALERT_CHAT_ID") as [cid|]; [|done].
  cbv zeta. destruct (py_int cid) as [n|]; [|done].
  intros [= <- <-]. cbn [whitelist blacklist bot_token w_heap w_posts].
  set (l1 := fresh (dom (w_heap w))).
  set (l2 := fresh (dom (<[l1:=[]]> (w_heap w)))).
  assert (l1 ∉ dom (w_heap w)) as H1 by apply is_fresh.
  assert (l2 ∉ dom (<[l1:=[]]> (w_heap w))) as H2 by apply is_fresh.
  rewrite dom_insert_L in H2.
  exists l1, l2. repeat split.
  - intros E. apply H2. rewrite E. set_solver.
  - by apply not_elem_of_dom.
  - apply not_elem_of_dom. set_solver.
Qed.

(** X9. [from_environment] posts nothing and changes no list object that was
    there before; when it raises KeyError it has changed nothing at all. *)
Theorem from_environment_frame (environ : gmap string string) (w : world) :
  let w' := (from_environment py_int environ w).2 in
  w_posts w' = w_posts w
  /\ (forall l xs, w_heap w !! l = Some xs -> w_heap w' !! l = Some xs)
  /\ (forall msg, (from_environment py_int environ w).1 = Raise (KeyError msg) -> w' = w).
Proof.
  rewrite from_environment_run.
  destruct (environ !! "ALERT_BOT_TOKEN") as [token|]; [|done].
  destruct (environ !! "ALERT_CHAT_ID") as [cid|]; [|done].
  cbv zeta.
  set (l1 := fresh (dom (w_heap w))).
  set (l2 := fresh (dom (<[l1:=[]]> (w_heap w)))).
  assert (l1 ∉ dom (w_heap w)) as H1 by apply is_fresh.
  assert (l2 ∉ dom (<[l1:=[]]> (w_heap w))) as H2 by apply is_fresh.
  rewrite dom_insert_L in H2.
  assert (forall l xs, w_heap w !! l = Some xs ->
            <[l2:=[]]> (<[l1:=[]]> (w_heap w)) !! l = Some xs) as Hkeep.
  { intros l xs Hl.
    assert (l ∈ dom (w_heap w)) by (apply elem_of_dom; eauto).
    rewrite !lookup_insert_ne; [done| |]; intros ->; set_solver. }
  destruct (py_int cid) as [n|]; cbn [fst snd w_heap w_posts]; by repeat split.
Qed.

Lemma truth_of_read h h' c : read h c = read h' c -> truth h c = truth h' c.
Proof. destruct c as [s|l]; simpl; [done|]. by intros [= ->]. Qed.

(** X10. Two Alerters built one after the other from an environment that sets
    neither filter variable share no list: after an append to the whitelist
    of the first, that whitelist holds the one name and the three other
    filters are still empty. *)
Theorem from_environment_filters_are_independent (environ : gmap string string)
    (w w1 w2 : world) (a b : Alerter) (x : string) :
  environ !! "ALERT_BOT_WHITELIST" = None ->
  environ !! "ALERT_BOT_BLACKLIST" = None ->
  from_environment py_int environ w = (Ok a, w1) ->
  from_environment py_int environ w1 = (Ok b, w2) ->
  exists h',
    container_append (w_heap w2) (whitelist a) x = Some h'
    /\ read h' (whitelist a) = ListContents [x]
    /\ read h' (blacklist a) = ListContents []
    /\ read h' (whitelist b) = ListContents []
    /\ read h' (blacklist b) = ListContents [].
Proof.
  intros Hw Hb Ha Hb'.
  apply from_environment_ok in Ha
    as (l1 & l2 & H12 & _ & _ & Hh1 & _ & _ & Hwa & Hba).
  apply from_environment_ok in Hb'
    as (l3 & l4 & H34 & Hl3 & Hl4 & Hh2 & _ & _ & Hwb & Hbb).
  rewrite Hw in Hwa, Hwb. rewrite Hb in Hba, Hbb.
  rewrite Hh1 in Hl3, Hl4.
  apply lookup_insert_None in Hl3 as [Hl3 H23].
  apply lookup_insert_None in Hl3 as [_ H13].
  apply lookup_insert_None in Hl4 as [Hl4 H24].
  apply lookup_insert_None in Hl4 as [_ H14].
  rewrite Hwa, Hba, Hwb, Hbb, Hh2, Hh1. simpl.
  eexists; split; [done|].
  unfold list_append, deref.
  rewrite lookup_total_insert_eq.
  rewrite !(lookup_total_insert_ne _ l1); [|done..].
  rewrite !(lookup_total_insert_ne _ l4 l1), !(lookup_total_insert_ne _ l3 l1); [|done..].
  rewrite !(lookup_total_insert_ne _ l2 l1); [|done..].
  rewrite !lookup_total_insert_eq.
  rewrite (lookup_total_insert_ne _ l4 l2), (lookup_total_insert_ne _ l3 l2); [|done..].
  rewrite (lookup_total_insert_ne _ l4 l3); [|done].
  by rewrite !lookup_total_insert_eq.
Qed.

(** X11. An Alerter built from an environment where each filter variable is
    unset or set to the empty string alerts on every exception, as long as
    its filters read as they did at construction: the wrapper posts the one
    alert for whatever the wrapped function raises. *)
Theorem environment_without_filters_alerts_all {A R}
    (environ : gmap string string) (w w' : world) (a : Alerter)
    (func : pyfunc A R) (args : A) (w0 w1 : world) (e : exn) :
  from_environment py_int environ w = (Ok a, w') ->
  environ !! "ALERT_BOT_WHITELIST" = None
    \/ environ !! "ALERT_BOT_WHITELIST" = Some "" ->
  environ !! "ALERT_BOT_BLACKLIST" = None
    \/ environ !! "ALERT_BOT_BLACKLIST" = Some "" ->
  fn_call func args w0 = (Raise e, w1) ->
  read (w_heap w1) (whitelist a) = read (w_heap w') (whitelist a) ->
  read (w_heap w1) (blacklist a) = read (w_heap w') (blacklist a) ->
  w_posts (fn_call (exception_alert transport a func) args w0).2
    = (w_posts w1 ++
         [ message_request a (chat_id a) (alert_text e func) (Some "HTML") true false ])%list.
Proof.
  intros Ha Hw Hb Hf Hrw Hrb.
  apply from_environment_ok in Ha
    as (l1 & l2 & H12 & _ & _ & Hh & _ & _ & Hwa & Hba).
  assert (truth (w_heap w') (whitelist a) = false) as Htw.
  { rewrite Hwa, Hh. destruct Hw as [->| ->]; [|done]. simpl. unfold deref.
    rewrite lookup_total_insert_ne, lookup_total_insert_eq; done. }
  assert (truth (w_heap w') (blacklist a) = false) as Htb.
  { rewrite Hba, Hh. destruct Hb as [->| ->]; [|done]. simpl. unfold deref.
    by rewrite lookup_total_insert_eq. }
  rewrite (wrapper_alerted _ _ _ _ _ _ _ Hf).
  - by rewrite send_message_run.
  - unfold alert_due.
    by rewrite (truth_of_read _ _ _ Hrw), (truth_of_read _ _ _ Hrb), Htw, Htb.
Qed.

End environment_more.

(** ** The further properties at the sample data *)

Lemma wrapper_never_swallows_witness :
  fn_call raises_bad tt fresh_world = (Raise value_error_bad, fresh_world)
  /\ exists e' w2,
       fn_call (exception_alert transport_down alerter_T1 raises_bad) tt fresh_world
         = (Raise e', w2).
Proof.
  split; [reflexivity|].
  destruct (wrapper_never_swallows transport_down alerter_T1 raises_bad tt
              fresh_world fresh_world value_error_bad eq_refl) as (e' & w2 & H & _).
  by exists e', w2.
Defined.

Lemma wrapper_returns_only_what_func_returns_witness :
  fn_call (exception_alert transport_up alerter_T1 returns_seven) tt fresh_world
    = (Ok 7%Z, fresh_world)
  /\ fn_call returns_seven tt fresh_world = (Ok 7%Z, fresh_world).
Proof.
  split; [reflexivity|].
  apply (wrapper_returns_only_what_func_returns transport_up alerter_T1 returns_seven
           tt fresh_world fresh_world 7%Z eq_refl).
Defined.

Lemma wrapper_delivery_failure_replaces_witness :
  fn_call raises_bad tt fresh_world = (Raise value_error_bad, fresh_world)
  /\ alert_due (w_heap fresh_world) alerter_T1 "ValueError" = true
  /\ (fn_call (exception_alert transport_down alerter_T1 raises_bad) tt fresh_world).1
      = Raise (Exn "ConnectionError" "connection refused" "Traceback").
Proof.
  split; [reflexivity|]. split; [reflexivity|].
  by rewrite (wrapper_delivery_failure_replaces transport_down alerter_T1 raises_bad tt
                fresh_world fresh_world value_error_bad _ eq_refl eq_refl eq_refl).
Defined.

Lemma stacked_decorators_alert_twice_witness :
  (forall log r, exists resp, transport_up log r = Ok resp)
  /\ length (w_posts (fn_call (exception_alert transport_up alerter_T2
                                 (exception_alert transport_up alerter_T1 raises_bad))
                        tt fresh_world).2) = 2.
Proof.
  assert (forall log r, exists resp, transport_up log r = Ok resp) as Hup
    by (intros; eexists; reflexivity).
  split; [exact Hup|].
  destruct (stacked_decorators_alert_twice transport_up alerter_T1 alerter_T2 raises_bad
              tt fresh_world fresh_world value_error_bad Hup eq_refl eq_refl eq_refl)
    as (t1 & t2 & H & _).
  by rewrite H.
Defined.

Lemma append_elsewhere_keeps_filters_witness :
  whitelist alerter_own_lists <> PyList default_whitelist
  /\ blacklist alerter_own_lists <> PyList default_whitelist
  /\ read (list_append module_heap default_whitelist "ValueError")
        (whitelist alerter_own_lists)
      = read module_heap (whitelist alerter_own_lists).
Proof.
  assert (whitelist alerter_own_lists <> PyList default_whitelist) as Hw by discriminate.
  assert (blacklist alerter_own_lists <> PyList default_whitelist) as Hb by discriminate.
  split; [exact Hw|]. split; [exact Hb|].
  apply (append_elsewhere_keeps_filters alerter_own_lists module_heap
           default_whitelist "ValueError" Hw Hb).
Defined.

Lemma posted_request_determines_call_witness :
  last (w_posts (send_message transport_up alerter_T1 42 "hello" no_kwargs fresh_world).2)
    = last (w_posts (send_message transport_up alerter_whitelisting 42 "hello"
                       (SendKwargs None (Some true) None) fresh_world).2)
  /\ bot_token alerter_T1 = bot_token alerter_whitelisting.
Proof.
  split; [reflexivity|].
  apply (posted_request_determines_call transport_up alerter_T1 alerter_whitelisting
           42 42 "hello" "hello" no_kwargs (SendKwargs None (Some true) None)
           fresh_world fresh_world eq_refl).
Defined.

Lemma from_environment_filters_are_independent_witness :
  from_environment decimal_int required_environ fresh_world
    = (Ok (mkAlerter "T1" 42 (PyList 2) (PyList 3)),
       World (<[3 := []]> (<[2 := []]> module_heap)) [])
  /\ exists h',
       container_append (<[5 := []]> (<[4 := []]> (<[3 := []]> (<[2 := []]> module_heap))))
         (PyList 2) "ValueError" = Some h'
       /\ read h' (PyList 2) = ListContents ["ValueError"]
       /\ read h' (PyList 4) = ListContents [].
Proof.
  assert (from_environment decimal_int required_environ fresh_world
          = (Ok (mkAlerter "T1" 42 (PyList 2) (PyList 3)),
             World (<[3 := []]> (<[2 := []]> module_heap)) [])) as H1 by (by vm_compute).
  assert (from_environment decimal_int required_environ
            (World (<[3 := []]> (<[2 := []]> module_heap)) [])
          = (Ok (mkAlerter "T1" 42 (PyList 4) (PyList 5)),
             World (<[5 := []]> (<[4 := []]> (<[3 := []]> (<[2 := []]> module_heap)))) []))
    as H2 by (by vm_compute).
  split; [exact H1|].
  destruct (from_environment_filters_are_independent decimal_int required_environ
              _ _ _ _ _ "ValueError" eq_refl eq_refl H1 H2)
    as (h' & Ha & Hwa & _ & Hwb & _).
  exists h'. by repeat split.
Defined.

Lemma environment_without_filters_alerts_all_witness :
  from_environment decimal_int required_environ fresh_world
    = (Ok (mkAlerter "T1" 42 (PyList 2) (PyList 3)),
       World (<[3 := []]> (<[2 := []]> module_heap)) [])
  /\ length (w_posts (fn_call (exception_alert transport_up
                                 (mkAlerter "T1" 42 (PyList 2) (PyList 3)) raises_bad)
                        tt (World (<[3 := []]> (<[2 := []]> module_heap)) [])).2) = 1.
Proof.
  assert (from_environment decimal_int required_environ fresh_world
          = (Ok (mkAlerter "T1" 42 (PyList 2) (PyList 3)),
             World (<[3 := []]> (<[2 := []]> module_heap)) [])) as H1 by (by vm_compute).
  split; [exact H1|].
  by rewrite (environment_without_filters_alerts_all decimal_int transport_up
                required_environ _ _ _ raises_bad tt _ _ value_error_bad H1
                (or_introl eq_refl) (or_introl eq_refl) eq_refl eq_refl eq_refl).
Defined.
